(** * The Zoom OAuth token cache of [team.py]

    A shallow embedding of [CustomZoomTool] (src/team.py, lines 22-67): the
    constructor, [get_access_token] and [_set_parent_token], together with
    the part of the outside world the two methods talk to (the clock behind
    [time.time()], the token endpoint behind [requests.post], and the error
    log behind [logger.error]).

    Conventions of the model.
    - Timestamps and lifetimes are exact integers (seconds); the rounding of
      Python floats is not modelled.  What is modelled is the
      [OverflowError] of [float + int] when the integer is too large to be
      converted to a float.
    - A value decoded from the JSON body is [None], a boolean, an integer or
      a string; nested arrays and objects as field values are outside the
      model.
    - Python exceptions are values: a raising statement stops the rest of the
      block, and the mutations done so far stay in place. *)

From Stdlib Require Import ZArith String List Lia Bool.
From stdpp Require Import base gmap strings pretty.
Import ListNotations.

Local Open Scope string_scope.
Local Open Scope Z_scope.
Local Open Scope list_scope.

(** ** Python values *)

Inductive pyval : Type :=
| PyNone
| PyBool (b : bool)
| PyInt (n : Z)
| PyStr (s : string).

(** Truth value of an object, as tested by [if x] and by [x and y]. *)
Definition py_truthy (v : pyval) : bool :=
  match v with
  | PyNone => false
  | PyBool b => b
  | PyInt n => negb (n =? 0)
  | PyStr s => negb (String.eqb s "")
  end.

(** [str(x)]. *)
Definition py_str (v : pyval) : string :=
  match v with
  | PyNone => "None"
  | PyBool true => "True"
  | PyBool false => "False"
  | PyInt n => pretty n
  | PyStr s => s
  end.

(** The number a value stands for in [float + x]: integers, and booleans
    (a subclass of [int]); anything else makes the addition raise. *)
Definition py_number (v : pyval) : option Z :=
  match v with
  | PyInt n => Some n
  | PyBool b => Some (Z.b2z b)
  | PyNone | PyStr _ => None
  end.

(** What [response.json()] can decode to at top level.  Only an object can be
    indexed by a string key. *)
Inductive pyjson : Type :=
| JObject (fields : gmap string pyval)
| JArray
| JScalar (v : pyval).

(** ** Exceptions *)

Inductive exn : Type :=
| ConnectionError (msg : string)
| ReadTimeout (msg : string)
| HTTPError (msg : string)
| JSONDecodeError (msg : string)
| KeyError (key : string)
| TypeError (msg : string)
| OverflowError (msg : string).

(** [isinstance(e, requests.RequestException)]: the classes of [requests]
    derive from it ([JSONDecodeError] since requests 2.27); the built-in
    [KeyError], [TypeError] and [OverflowError] do not. *)
Definition is_RequestException (e : exn) : bool :=
  match e with
  | ConnectionError _ | ReadTimeout _ | HTTPError _ | JSONDecodeError _ => true
  | KeyError _ | TypeError _ | OverflowError _ => false
  end.

(** [str(e)], as interpolated by the f-string of the handler. *)
Definition exn_str (e : exn) : string :=
  match e with
  | ConnectionError m | ReadTimeout m | HTTPError m | JSONDecodeError m
  | TypeError m | OverflowError m => m
  | KeyError k => "'" +:+ k +:+ "'"
  end.

(** ** The outside world *)

Record Request : Type := mkRequest {
  req_method : string;
  req_url : string;
  req_headers : list (string * string);
  req_data : list (string * option string);
  req_auth : option string * option string
}.

Record Response : Type := mkResponse {
  status_code : Z;
  reason : string;
  resp_url : string;
  body : option pyjson      (* [None]: the body is not JSON *)
}.

Inductive PostOutcome : Type :=
| PostRaises (e : exn)
| PostReturns (r : Response).

(** The environment is an oracle: [clock i] is what the [i]-th call of
    [time.time()] returns, [server j req] is what happens to the [j]-th
    request sent. *)
Record Env : Type := mkEnv {
  clock : nat -> Z;
  server : nat -> Request -> PostOutcome
}.

(** What the program has done to the world so far. *)
Record World : Type := mkWorld {
  ticks : nat;                 (* calls of [time.time()] *)
  sent : list Request;         (* requests handed to [requests.post] *)
  logged : list string         (* messages given to [logger.error] *)
}.

(** ** The object *)

Record CustomZoomTool : Type := mkTool {
  account_id : option string;
  client_id : option string;
  client_secret : option string;
  name : string;
  _ZoomTool__access_token : option string;   (* private field of the parent *)
  token_url : string;
  access_token : pyval;
  token_expires_at : Z
}.

Definition set_access_token (v : pyval) (self : CustomZoomTool) :=
  mkTool (account_id self) (client_id self) (client_secret self) (name self)
         (_ZoomTool__access_token self) (token_url self)
         v (token_expires_at self).

Definition set_token_expires_at (t : Z) (self : CustomZoomTool) :=
  mkTool (account_id self) (client_id self) (client_secret self) (name self)
         (_ZoomTool__access_token self) (token_url self)
         (access_token self) t.

Definition set_ZoomTool__access_token (tok : string) (self : CustomZoomTool) :=
  mkTool (account_id self) (client_id self) (client_secret self) (name self)
         (Some tok) (token_url self)
         (access_token self) (token_expires_at self).

(** ** A monad for methods: state, oracle and exceptions *)

Inductive Result (A : Type) : Type :=
| Ok (a : A)
| Raise (e : exn).
Arguments Ok {A} a.
Arguments Raise {A} e.

Record Out (A : Type) : Type := mkOut {
  res : Result A;
  obj : CustomZoomTool;
  world : World
}.
Arguments mkOut {A} _ _ _.
Arguments res {A} _.
Arguments obj {A} _.
Arguments world {A} _.

Definition M (A : Type) : Type := Env -> CustomZoomTool -> World -> Out A.

Definition ret {A} (a : A) : M A := fun _ self w => mkOut (Ok a) self w.

Definition bind {A B} (m : M A) (k : A -> M B) : M B :=
  fun env self w =>
    match m env self w with
    | mkOut (Ok a) self' w' => k a env self' w'
    | mkOut (Raise e) self' w' => mkOut (Raise e) self' w'
    end.

(** [try: body  except C as e: handler e], where [catches] decides
    [isinstance(e, C)]. *)
Definition try_except {A} (body : M A) (catches : exn -> bool)
    (handler : exn -> M A) : M A :=
  fun env self w =>
    match body env self w with
    | mkOut (Ok a) self' w' => mkOut (Ok a) self' w'
    | mkOut (Raise e) self' w' =>
        if catches e then handler e env self' w'
        else mkOut (Raise e) self' w'
    end.

Declare Scope py_scope.
Delimit Scope py_scope with py.
Notation "x <- m ;; k" := (bind m (fun x => k))
  (at level 100, m at next level, right associativity) : py_scope.
Notation "m >> k" := (bind m (fun _ => k))
  (at level 100, k at level 200, right associativity) : py_scope.
Local Open Scope py_scope.

Definition read {A} (f : CustomZoomTool -> A) : M A :=
  fun _ self w => mkOut (Ok (f self)) self w.

Definition assign (f : CustomZoomTool -> CustomZoomTool) : M unit :=
  fun _ self w => mkOut (Ok tt) (f self) w.

(** [time.time()] *)
Definition time_time : M Z :=
  fun env self w =>
    mkOut (Ok (clock env (ticks w))) self
          (mkWorld (S (ticks w)) (sent w) (logged w)).

(** [requests.post(url, headers=..., data=..., auth=...)] *)
Definition requests_post (u : string) (hs : list (string * string))
    (d : list (string * option string)) (a : option string * option string)
    : M Response :=
  fun env self w =>
    let req := mkRequest "POST" u hs d a in
    let w' := mkWorld (ticks w) (sent w ++ [req]) (logged w) in
    match server env (length (sent w)) req with
    | PostRaises e => mkOut (Raise e) self w'
    | PostReturns r => mkOut (Ok r) self w'
    end.

(** [logger.error(msg)] *)
Definition logger_error (msg : string) : M unit :=
  fun _ self w =>
    mkOut (Ok tt) self (mkWorld (ticks w) (sent w) (logged w ++ [msg])).

(** Running a pure operation that either yields a value or raises. *)
Definition lift {A} (r : Result A) : M A := fun _ self w => mkOut r self w.

(** [response.raise_for_status()] of the [requests] library: an [HTTPError]
    for a status from 400 to 599, nothing for any other status. *)
Definition raise_for_status (r : Response) : Result unit :=
  if (400 <=? status_code r) && (status_code r <? 500) then
    Raise (HTTPError (pretty (status_code r) +:+ " Client Error: "
                      +:+ reason r +:+ " for url: " +:+ resp_url r))
  else if (500 <=? status_code r) && (status_code r <? 600) then
    Raise (HTTPError (pretty (status_code r) +:+ " Server Error: "
                      +:+ reason r +:+ " for url: " +:+ resp_url r))
  else Ok tt.

(** [response.json()] *)
Definition response_json (r : Response) : Result pyjson :=
  match body r with
  | Some j => Ok j
  | None => Raise (JSONDecodeError "Expecting value: line 1 column 1 (char 0)")
  end.

(** [token_info[key]] *)
Definition py_getitem (j : pyjson) (key : string) : Result pyval :=
  match j with
  | JObject fields =>
      match fields !! key with
      | Some v => Ok v
      | None => Raise (KeyError key)
      end
  | JArray => Raise (TypeError "list indices must be integers or slices, not str")
  | JScalar (PyStr _) => Raise (TypeError "string indices must be integers")
  | JScalar _ => Raise (TypeError "object is not subscriptable")
  end.

(** The integers that [float + int] can convert to a float: those that
    round (to nearest, ties to even) to a finite double, that is those
    strictly between -(2^1024 - 2^970) and 2^1024 - 2^970.  For any other
    integer the conversion raises [OverflowError]. *)
Definition float_limit : Z := 2 ^ 1024 - 2 ^ 970.

Definition fits_float (n : Z) : bool :=
  (- float_limit <? n) && (n <? float_limit).

(** [now + expires_in - 60], with [now] a float: [expires_in] must be a
    number, and one that can be converted to a float. *)
Definition py_add_sub (now : Z) (expires_in : pyval) (margin : Z) : Result Z :=
  match py_number expires_in with
  | Some n =>
      if fits_float n then Ok (now + n - margin)
      else Raise (OverflowError "int too large to convert to float")
  | None => Raise (TypeError "unsupported operand type(s) for +")
  end.

(** ** The class *)

(** [CustomZoomTool.__init__]: the parent's constructor stores the three
    credentials and the name and sets its private token to [None]; the
    subclass adds the endpoint and the empty cache. *)
Definition __init__ (account_id client_id client_secret : option string)
    (name : string) : CustomZoomTool :=
  mkTool account_id client_id client_secret name None
         "https://zoom.us/oauth/token" PyNone 0.

(** [CustomZoomTool._set_parent_token] *)
Definition _set_parent_token (token : string) : M unit :=
  if negb (String.eqb token "") then assign (set_ZoomTool__access_token token)
  else ret tt.

(** The test of line 41: [self.access_token and time.time() <
    self.token_expires_at].  The clock is read only when the cached value is
    truthy. *)
Definition cache_is_fresh : M bool :=
  tok <- read access_token ;;
  if py_truthy tok then
    now <- time_time ;;
    expires_at <- read token_expires_at ;;
    ret (now <? expires_at)
  else ret false.

(** Lines 48-59, the body of the [try]. *)
Definition exchange (headers : list (string * string))
    (data : list (string * option string)) : M string :=
  u <- read token_url ;;
  cid <- read client_id ;;
  secret <- read client_secret ;;
  response <- requests_post u headers data (cid, secret) ;;
  lift (raise_for_status response) >>
  token_info <- lift (response_json response) ;;
  tok <- lift (py_getitem token_info "access_token") ;;
  assign (set_access_token tok) >>
  expires_in <- lift (py_getitem token_info "expires_in") ;;
  now <- time_time ;;
  expires_at <- lift (py_add_sub now expires_in 60) ;;
  assign (set_token_expires_at expires_at) >>
  tok1 <- read access_token ;;
  _set_parent_token (py_str tok1) >>
  tok2 <- read access_token ;;
  ret (py_str tok2).

(** [CustomZoomTool.get_access_token] *)
Definition get_access_token : M string :=
  hit <- cache_is_fresh ;;
  if (hit : bool) then
    tok <- read access_token ;;
    ret (py_str tok)
  else
    let headers := [("Content-Type", "application/x-www-form-urlencoded")] in
    acc <- read account_id ;;
    let data := [("grant_type", Some "account_credentials");
                 ("account_id", acc)] in
    try_except (exchange headers data) is_RequestException
      (fun e =>
         logger_error ("Error fetching access token: " +:+ exn_str e) >>
         ret "").

(** [n] calls of [get_access_token] in a row, collecting what they return. *)
Fixpoint call_n (n : nat) : M (list string) :=
  match n with
  | O => ret []
  | S k =>
      x <- get_access_token ;;
      xs <- call_n k ;;
      ret (x :: xs)
  end.

(** ** Vocabulary of the specification *)

(** The value of the test of line 41 in a given state of the world. *)
Definition is_fresh (env : Env) (self : CustomZoomTool) (w : World) : bool :=
  py_truthy (access_token self) && (clock env (ticks w) <? token_expires_at self).

(** The world after the test of line 41: one clock reading, taken only when
    the cached value is truthy. *)
Definition after_check (self : CustomZoomTool) (w : World) : World :=
  if py_truthy (access_token self)
  then mkWorld (S (ticks w)) (sent w) (logged w)
  else w.

(** The request built by lines 44-50. *)
Definition token_request (self : CustomZoomTool) : Request :=
  mkRequest "POST" (token_url self)
    [("Content-Type", "application/x-www-form-urlencoded")]
    [("grant_type", Some "account_credentials");
     ("account_id", account_id self)]
    (client_id self, client_secret self).

(** What the token endpoint answers to the request of a refreshing call. *)
Definition reply (env : Env) (self : CustomZoomTool) (w : World) : PostOutcome :=
  server env (length (sent w)) (token_request self).

(** The exchange succeeds: the endpoint answers with a status that
    [raise_for_status] accepts and a JSON object that declares the token
    [tok] and a numeric lifetime [lifetime]. *)
Definition exchange_succeeds (env : Env) (self : CustomZoomTool) (w : World)
    (tok : pyval) (lifetime : Z) : Prop :=
  exists r fields e,
    reply env self w = PostReturns r /\
    raise_for_status r = Ok tt /\
    body r = Some (JObject fields) /\
    fields !! "access_token" = Some tok /\
    fields !! "expires_in" = Some e /\
    py_number e = Some lifetime.

(** The exchange fails the way the handler of line 60 expects: the transport
    raises a [RequestException], or the status is one that
    [raise_for_status] turns into an [HTTPError]. *)
Definition exchange_fails (env : Env) (self : CustomZoomTool) (w : World) : Prop :=
  (exists e, reply env self w = PostRaises e /\ is_RequestException e = true) \/
  (exists r, reply env self w = PostReturns r /\ 400 <= status_code r < 600).

(** The clock reading of line 56 in a refreshing call started in world [w]. *)
Definition issue_time (env : Env) (self : CustomZoomTool) (w : World) : Z :=
  clock env (ticks (after_check self w)).

(** The states an object can be in: built by the constructor, then used
    through its two methods in any environment. *)
Inductive reachable (a c k : option string) (n : string)
    : CustomZoomTool -> Prop :=
| reach_init : reachable a c k n (__init__ a c k n)
| reach_get env self w :
    reachable a c k n self ->
    reachable a c k n (obj (get_access_token env self w))
| reach_set token env self w :
    reachable a c k n self ->
    reachable a c k n (obj (_set_parent_token token env self w)).

(** The invariant of the data model: a cached value comes with the expiry
    computed from it.  Some request already sent was answered with an object
    declaring this very token and a lifetime, and [token_expires_at] is a
    clock reading already taken, plus that lifetime, minus 60. *)
Definition cache_invariant (env : Env) (self : CustomZoomTool) (w : World) : Prop :=
  access_token self <> PyNone ->
  exists (i j : nat) req r fields e lifetime,
    (i < ticks w)%nat /\
    sent w !! j = Some req /\
    server env j req = PostReturns r /\
    body r = Some (JObject fields) /\
    fields !! "access_token" = Some (access_token self) /\
    fields !! "expires_in" = Some e /\
    py_number e = Some lifetime /\
    token_expires_at self = clock env i + lifetime - 60.

(** The fields set by the constructor and read by the request. *)
Definition config (self : CustomZoomTool) :=
  (account_id self, client_id self, client_secret self, token_url self).

(** The object after lines 54-58 have run with token [tok] and expiry [t]. *)
Definition stored (tok : pyval) (t : Z) (self : CustomZoomTool) : CustomZoomTool :=
  let self' := set_token_expires_at t (set_access_token tok self) in
  if negb (String.eqb (py_str tok) "")
  then set_ZoomTool__access_token (py_str tok) self'
  else self'.

(** The world after a request has been handed to [requests.post]. *)
Definition posted (self : CustomZoomTool) (w : World) : World :=
  mkWorld (ticks w) (sent w ++ [token_request self]) (logged w).

Definition ticked (w : World) : World :=
  mkWorld (S (ticks w)) (sent w) (logged w).

Definition error_logged (e : exn) (w : World) : World :=
  mkWorld (ticks w) (sent w)
          (logged w ++ ["Error fetching access token: " +:+ exn_str e]).

(** The handler of lines 60-62 applied to an exception raised in the [try]:
    a [RequestException] is logged and turned into the empty string, any
    other exception goes on to the caller. *)
Definition caught (e : exn) (self : CustomZoomTool) (w : World) : Out string :=
  if is_RequestException e
  then mkOut (Ok "") self (error_logged e w)
  else mkOut (Raise e) self w.

(** ** The shapes a call can take *)

(** Every call of [get_access_token] ends in one of five ways: it is served
    from the cache; the exchange fails with a [RequestException], which the
    handler logs; another exception leaves the [try] before line 54 has
    run, or after it; or the exchange succeeds. *)
Inductive call_outcome (env : Env) (self : CustomZoomTool) (w : World)
    : Out string -> Prop :=
| served :
    is_fresh env self w = true ->
    call_outcome env self w
      (mkOut (Ok (py_str (access_token self))) self (ticked w))
| failed e :
    is_fresh env self w = false ->
    is_RequestException e = true ->
    call_outcome env self w
      (mkOut (Ok "") self (error_logged e (posted self (after_check self w))))
| raised_before e :
    is_fresh env self w = false ->
    is_RequestException e = false ->
    call_outcome env self w
      (mkOut (Raise e) self (posted self (after_check self w)))
| raised_after tok e w' :
    is_fresh env self w = false ->
    is_RequestException e = false ->
    w' = posted self (after_check self w) \/
    w' = ticked (posted self (after_check self w)) ->
    call_outcome env self w (mkOut (Raise e) (set_access_token tok self) w')
| refreshed tok lifetime :
    is_fresh env self w = false ->
    exchange_succeeds env self w tok lifetime ->
    fits_float lifetime = true ->
    call_outcome env self w
      (mkOut (Ok (py_str tok))
             (stored tok (issue_time env self w + lifetime - 60) self)
             (ticked (posted self (after_check self w)))).

(** The life of an object none of whose calls has raised: built by the
    constructor in a world where nothing has happened yet, then used
    through calls of [get_access_token] that all returned. *)
Inductive history (env : Env) : CustomZoomTool -> World -> Prop :=
| history_init a c k n :
    history env (__init__ a c k n) (mkWorld 0 [] [])
| history_call self w x :
    history env self w ->
    res (get_access_token env self w) = Ok x ->
    history env (obj (get_access_token env self w))
                (world (get_access_token env self w)).

(** The parent's private field agrees with the cache: it holds [str] of the
    cached value whenever there is one and its [str] is not empty. *)
Definition in_sync (self : CustomZoomTool) : Prop :=
  access_token self <> PyNone ->
  py_str (access_token self) <> "" ->
  _ZoomTool__access_token self = Some (py_str (access_token self)).

(** A decoded body from which line 54 cannot read a token: not an object, or
    an object without the key. *)
Definition lacks_token (j : pyjson) : Prop :=
  match j with
  | JObject fields => fields !! "access_token" = None
  | JArray | JScalar _ => True
  end.

(** ** Concrete scenarios *)

(** A tool as line 70 builds it, and a world in which nothing has happened. *)
Definition zoom_tools : CustomZoomTool :=
  __init__ (Some "account") (Some "client") (Some "secret") "zoom_tool".

Definition quiet : World := mkWorld 0 [] [].

(** The same tool with the token "OLD" cached until time 900, as a
    successful exchange leaves it. *)
Definition tool_old : CustomZoomTool := stored (PyStr "OLD") 900 zoom_tools.

(** A JSON object with the two fields of a token response. *)
Definition token_body (tok expires_in : pyval) : pyjson :=
  JObject (insert "access_token" tok (insert "expires_in" expires_in empty)).

Definition http_reply (status : Z) (why : string) (b : option pyjson)
    : PostOutcome :=
  PostReturns (mkResponse status why "https://zoom.us/oauth/token" b).

(** An environment whose clock starts at [t] and advances by [step] at each
    reading, and whose endpoint always answers [out]. *)
Definition scenario (t step : Z) (out : PostOutcome) : Env :=
  mkEnv (fun i => t + step * Z.of_nat i) (fun _ _ => out).

(** Status 300 with a well-formed token in the body. *)
Definition env_300 : Env :=
  scenario 1000 1
    (http_reply 300 "Multiple Choices"
       (Some (token_body (PyStr "NEW") (PyInt 3600)))).

(** Status 401, no JSON body. *)
Definition env_401 : Env :=
  scenario 1000 1 (http_reply 401 "Unauthorized" None).

(** Status 200, token "T" valid for an hour. *)
Definition env_T : Env :=
  scenario 1000 1 (http_reply 200 "OK" (Some (token_body (PyStr "T") (PyInt 3600)))).

(** The same endpoint, asked at time 100, before "OLD" expires. *)
Definition env_early : Env :=
  scenario 100 1 (http_reply 200 "OK" (Some (token_body (PyStr "T") (PyInt 3600)))).

(** Status 200, token "abc" valid for ten seconds. *)
Definition env_abc : Env :=
  scenario 1000 1 (http_reply 200 "OK" (Some (token_body (PyStr "abc") (PyInt 10)))).

(** Status 200, an empty token valid for an hour. *)
Definition env_empty : Env :=
  scenario 1000 1 (http_reply 200 "OK" (Some (token_body (PyStr "") (PyInt 3600)))).

(** Status 200, a token but no [expires_in] (RFC 6749 only recommends the
    field). *)
Definition env_no_lifetime : Env :=
  scenario 1000 1
    (http_reply 200 "OK" (Some (JObject (insert "access_token" (PyStr "T") empty)))).

(** Status 200, a JSON [null] where the token should be. *)
Definition env_null : Env :=
  scenario 1000 1 (http_reply 200 "OK" (Some (token_body PyNone (PyInt 3600)))).


(** Status 200, a body that is not JSON. *)
Definition env_not_json : Env :=
  scenario 1000 1 (http_reply 200 "OK" None).

(** Status 200, a JSON object that declares an error and no token. *)
Definition env_no_token : Env :=
  scenario 1000 1
    (http_reply 200 "OK"
       (Some (JObject (insert "error" (PyStr "invalid_client") empty)))).

(** * Symbolic execution of the two methods *)

Ltac run_monad :=
  unfold bind, ret, read, assign, lift, time_time, requests_post,
         logger_error, try_except; cbv beta iota zeta.

Lemma cache_is_fresh_run env self w :
  cache_is_fresh env self w
  = mkOut (Ok (is_fresh env self w)) self (after_check self w).
Proof.
  unfold cache_is_fresh, is_fresh, after_check. run_monad.
  destruct (py_truthy (access_token self)); reflexivity.
Qed.

Lemma set_parent_token_run token env self w :
  _set_parent_token token env self w
  = mkOut (Ok tt)
          (if negb (String.eqb token "")
           then set_ZoomTool__access_token token self else self) w.
Proof.
  unfold _set_parent_token. destruct (negb (String.eqb token "")); reflexivity.
Qed.

(** The body of the [try], statement by statement. *)
Lemma exchange_run env self w :
  exchange [("Content-Type", "application/x-www-form-urlencoded")]
           [("grant_type", Some "account_credentials");
            ("account_id", account_id self)] env self w
  = let w1 := posted self w in
    match reply env self w with
    | PostRaises e => mkOut (Raise e) self w1
    | PostReturns r =>
      match raise_for_status r with
      | Raise e => mkOut (Raise e) self w1
      | Ok _ =>
        match response_json r with
        | Raise e => mkOut (Raise e) self w1
        | Ok token_info =>
          match py_getitem token_info "access_token" with
          | Raise e => mkOut (Raise e) self w1
          | Ok tok =>
            match py_getitem token_info "expires_in" with
            | Raise e => mkOut (Raise e) (set_access_token tok self) w1
            | Ok expires_in =>
              match py_add_sub (clock env (ticks w)) expires_in 60 with
              | Raise e => mkOut (Raise e) (set_access_token tok self) (ticked w1)
              | Ok t => mkOut (Ok (py_str tok)) (stored tok t self) (ticked w1)
              end
            end
          end
        end
      end
    end.
Proof.
  unfold exchange, reply, token_request, posted, ticked, stored. run_monad.
  destruct (server env _ _) as [e|r]; [reflexivity|].
  destruct (raise_for_status r) as [[]|]; [|reflexivity].
  destruct (response_json r) as [j|]; [|reflexivity].
  destruct (py_getitem j "access_token") as [tok|]; [|reflexivity].
  destruct (py_getitem j "expires_in") as [ei|]; [|reflexivity].
  destruct (py_add_sub _ ei 60) as [t|]; [|reflexivity].
  unfold _set_parent_token, set_access_token, set_token_expires_at.
  cbn [access_token].
  destruct (negb (String.eqb (py_str tok) "")); reflexivity.
Qed.

(** The whole method: the fast path, or the [try] with its handler. *)
Lemma get_access_token_run env self w :
  get_access_token env self w
  = if is_fresh env self w
    then mkOut (Ok (py_str (access_token self))) self (after_check self w)
    else
      match exchange [("Content-Type", "application/x-www-form-urlencoded")]
                     [("grant_type", Some "account_credentials");
                      ("account_id", account_id self)]
                     env self (after_check self w) with
      | mkOut (Ok x) self' w' => mkOut (Ok x) self' w'
      | mkOut (Raise e) self' w' =>
          if is_RequestException e
          then mkOut (Ok "") self' (error_logged e w')
          else mkOut (Raise e) self' w'
      end.
Proof.
  unfold get_access_token. unfold bind at 1. rewrite cache_is_fresh_run.
  destruct (is_fresh env self w); [reflexivity|].
  unfold bind at 1, read at 1, try_except.
  destruct (exchange _ _ env self (after_check self w)) as [[x|e] self' w'];
    [reflexivity|].
  destruct (is_RequestException e); reflexivity.
Qed.

Lemma is_fresh_true env self w :
  is_fresh env self w = true <->
  py_truthy (access_token self) = true /\
  clock env (ticks w) < token_expires_at self.
Proof.
  unfold is_fresh. rewrite andb_true_iff, Z.ltb_lt. reflexivity.
Qed.

Lemma is_fresh_false env self w :
  is_fresh env self w = false <->
  py_truthy (access_token self) = false \/
  token_expires_at self <= clock env (ticks w).
Proof.
  unfold is_fresh. rewrite andb_false_iff, Z.ltb_ge. reflexivity.
Qed.

Lemma sent_after_check self w : sent (after_check self w) = sent w.
Proof. unfold after_check. destruct (py_truthy _); reflexivity. Qed.

Lemma logged_after_check self w : logged (after_check self w) = logged w.
Proof. unfold after_check. destruct (py_truthy _); reflexivity. Qed.

Lemma reply_after_check env self w :
  reply env self (after_check self w) = reply env self w.
Proof. unfold reply. rewrite sent_after_check. reflexivity. Qed.

Lemma raise_for_status_error r :
  400 <= status_code r < 600 ->
  exists msg, raise_for_status r = Raise (HTTPError msg).
Proof.
  intros [Hlo Hhi]. unfold raise_for_status.
  apply Z.leb_le in Hlo. rewrite Hlo. cbn [andb].
  destruct (status_code r <? 500) eqn:E5; [eauto|].
  apply Z.ltb_ge, Z.leb_le in E5. apply Z.ltb_lt in Hhi.
  rewrite E5, Hhi. cbn [andb]. eauto.
Qed.

Lemma raise_for_status_ok r :
  raise_for_status r = Ok tt <-> ~ 400 <= status_code r < 600.
Proof.
  unfold raise_for_status.
  destruct (400 <=? status_code r) eqn:E4, (status_code r <? 500) eqn:E5,
           (500 <=? status_code r) eqn:E6, (status_code r <? 600) eqn:E7;
    cbn [andb];
    repeat match goal with
    | H : (_ <=? _) = true |- _ => apply Z.leb_le in H
    | H : (_ <=? _) = false |- _ => apply Z.leb_gt in H
    | H : (_ <? _) = true |- _ => apply Z.ltb_lt in H
    | H : (_ <? _) = false |- _ => apply Z.ltb_ge in H
    end;
    split; intros; try discriminate; try reflexivity; lia.
Qed.

(** The fast path. *)
Lemma get_access_token_hit env self w :
  is_fresh env self w = true ->
  get_access_token env self w
  = mkOut (Ok (py_str (access_token self))) self (ticked w).
Proof.
  intros H. rewrite get_access_token_run, H.
  apply is_fresh_true in H as [Ht _].
  unfold after_check. rewrite Ht. reflexivity.
Qed.

(** The slow path, statement by statement. *)
Lemma get_access_token_miss env self w :
  is_fresh env self w = false ->
  get_access_token env self w
  = let w1 := posted self (after_check self w) in
    match reply env self w with
    | PostRaises e => caught e self w1
    | PostReturns r =>
      match raise_for_status r with
      | Raise e => caught e self w1
      | Ok _ =>
        match response_json r with
        | Raise e => caught e self w1
        | Ok token_info =>
          match py_getitem token_info "access_token" with
          | Raise e => caught e self w1
          | Ok tok =>
            match py_getitem token_info "expires_in" with
            | Raise e => caught e (set_access_token tok self) w1
            | Ok expires_in =>
              match py_add_sub (issue_time env self w) expires_in 60 with
              | Raise e => caught e (set_access_token tok self) (ticked w1)
              | Ok t => mkOut (Ok (py_str tok)) (stored tok t self) (ticked w1)
              end
            end
          end
        end
      end
    end.
Proof.
  intros H. rewrite get_access_token_run, H, exchange_run, reply_after_check.
  unfold issue_time, caught. cbv zeta.
  destruct (reply env self w) as [e|r]; [reflexivity|].
  destruct (raise_for_status r) as [[]|]; [|reflexivity].
  destruct (response_json r) as [j|]; [|reflexivity].
  destruct (py_getitem j "access_token") as [tok|]; [|reflexivity].
  destruct (py_getitem j "expires_in") as [ei|]; [|reflexivity].
  destruct (py_add_sub _ ei 60) as [t|]; reflexivity.
Qed.

Lemma sent_caught e self w : sent (world (caught e self w)) = sent w.
Proof. unfold caught. destruct (is_RequestException e); reflexivity. Qed.

Lemma ticks_caught e self w : ticks (world (caught e self w)) = ticks w.
Proof. unfold caught. destruct (is_RequestException e); reflexivity. Qed.

Lemma obj_caught e self w : obj (caught e self w) = self.
Proof. unfold caught. destruct (is_RequestException e); reflexivity. Qed.

(** Case analysis on the innermost scrutinee of the goal. *)
Ltac case_innermost :=
  match goal with
  | |- context [match ?x with _ => _ end] =>
      lazymatch x with
      | context [match _ with _ => _ end] => fail
      | _ => destruct x eqn:?
      end
  end.

(** A refreshing call hands exactly one request to [requests.post], whatever
    comes back. *)
Lemma get_access_token_miss_sent env self w :
  is_fresh env self w = false ->
  sent (world (get_access_token env self w)) = sent w ++ [token_request self].
Proof.
  intros H. rewrite (get_access_token_miss env self w H). cbv zeta.
  repeat case_innermost; rewrite ?sent_caught; cbn [world ticked posted sent];
    rewrite sent_after_check; reflexivity.
Qed.

(** The side conditions of [get_access_token_success]. *)
Ltac success_side :=
  first [assumption | apply is_fresh_false; assumption | reflexivity].

(** A refreshing call whose exchange succeeds. *)
Lemma get_access_token_success env self w tok lifetime :
  is_fresh env self w = false ->
  exchange_succeeds env self w tok lifetime ->
  fits_float lifetime = true ->
  get_access_token env self w
  = mkOut (Ok (py_str tok))
          (stored tok (issue_time env self w + lifetime - 60) self)
          (ticked (posted self (after_check self w))).
Proof.
  intros H (r & fields & e & Hr & Hs & Hb & Ht & He & Hn) Hfit.
  rewrite (get_access_token_miss env self w H), Hr, Hs. cbv zeta.
  unfold response_json. rewrite Hb. unfold py_getitem. rewrite Ht, He.
  unfold py_add_sub. rewrite Hn, Hfit. reflexivity.
Qed.

(** A refreshing call whose reply declares a lifetime too large for a float:
    line 56 raises after line 54 has run. *)
Lemma get_access_token_overflow env self w tok lifetime :
  is_fresh env self w = false ->
  exchange_succeeds env self w tok lifetime ->
  fits_float lifetime = false ->
  get_access_token env self w
  = mkOut (Raise (OverflowError "int too large to convert to float"))
          (set_access_token tok self)
          (ticked (posted self (after_check self w))).
Proof.
  intros H (r & fields & e & Hr & Hs & Hb & Ht & He & Hn) Hfit.
  rewrite (get_access_token_miss env self w H), Hr, Hs. cbv zeta.
  unfold response_json. rewrite Hb. unfold py_getitem. rewrite Ht, He.
  unfold py_add_sub. rewrite Hn, Hfit. reflexivity.
Qed.

(** A refreshing call whose exchange fails with a [RequestException]. *)
Lemma get_access_token_failure env self w :
  is_fresh env self w = false ->
  exchange_fails env self w ->
  exists e,
    is_RequestException e = true /\
    get_access_token env self w
    = mkOut (Ok "") self (error_logged e (posted self (after_check self w))).
Proof.
  intros H Hf. rewrite (get_access_token_miss env self w H). cbv zeta.
  destruct Hf as [(e & Hr & He) | (r & Hr & Hst)]; rewrite Hr.
  - exists e. unfold caught. rewrite He. auto.
  - destruct (raise_for_status_error r Hst) as [msg Hm]. rewrite Hm.
    exists (HTTPError msg). auto.
Qed.

Lemma py_getitem_ok j key v :
  py_getitem j key = Ok v ->
  exists fields, j = JObject fields /\ fields !! key = Some v.
Proof.
  unfold py_getitem. destruct j as [fields| |[]]; try discriminate.
  destruct (fields !! key) eqn:E; intros H; inversion H; subst. eauto.
Qed.

Lemma py_getitem_raises j key e :
  py_getitem j key = Raise e -> is_RequestException e = false.
Proof.
  unfold py_getitem. destruct j as [fields| |[]]; try destruct (fields !! key);
    intros H; inversion H; reflexivity.
Qed.

Lemma py_add_sub_ok now v margin t :
  py_add_sub now v margin = Ok t ->
  exists n, py_number v = Some n /\ fits_float n = true /\
            t = now + n - margin.
Proof.
  unfold py_add_sub. destruct (py_number v) as [n|]; [|discriminate].
  destruct (fits_float n) eqn:E; intros H; inversion H. eauto.
Qed.

Lemma py_add_sub_raises now v margin e :
  py_add_sub now v margin = Raise e -> is_RequestException e = false.
Proof.
  unfold py_add_sub. destruct (py_number v) as [n|];
    [destruct (fits_float n)|]; intros H; inversion H; reflexivity.
Qed.

Lemma response_json_ok r j : response_json r = Ok j -> body r = Some j.
Proof.
  unfold response_json. destruct (body r); intros H; inversion H. reflexivity.
Qed.

(** What a call can have done to the object: nothing; the assignment of
    line 54 alone, when the call raised after it; or lines 54-58, when the
    exchange succeeded. *)
Lemma get_access_token_obj env self w :
  let o := get_access_token env self w in
  obj o = self \/
  (exists tok e, obj o = set_access_token tok self /\ res o = Raise e) \/
  (exists tok lifetime,
     is_fresh env self w = false /\
     exchange_succeeds env self w tok lifetime /\
     fits_float lifetime = true).
Proof.
  cbv zeta. destruct (is_fresh env self w) eqn:Hf.
  { left. rewrite get_access_token_hit by exact Hf. reflexivity. }
  rewrite (get_access_token_miss env self w Hf). cbv zeta.
  destruct (reply _ _ _) as [e|r] eqn:Hr; [left; apply obj_caught|].
  destruct (raise_for_status r) as [[]|e] eqn:Hs; [|left; apply obj_caught].
  destruct (response_json r) as [j|e] eqn:Hj; [|left; apply obj_caught].
  destruct (py_getitem j "access_token") as [tok|e] eqn:Ht;
    [|left; apply obj_caught].
  destruct (py_getitem j "expires_in") as [ei|e] eqn:Ei.
  2:{ right; left. exists tok, e. unfold caught.
      rewrite (py_getitem_raises _ _ _ Ei). auto. }
  destruct (py_add_sub _ ei 60) as [t|e] eqn:Et.
  2:{ right; left. exists tok, e. unfold caught.
      rewrite (py_add_sub_raises _ _ _ _ Et). auto. }
  right; right.
  apply response_json_ok in Hj.
  apply py_getitem_ok in Ht as (fields & -> & Ht).
  apply py_getitem_ok in Ei as (fields' & Heq & Ei).
  injection Heq as <-.
  apply py_add_sub_ok in Et as (n & Hn & Hfit & _).
  exists tok, n. split; [reflexivity|]. split; [|exact Hfit].
  exists r, fields, ei. auto 10.
Qed.

Lemma config_stored tok t self : config (stored tok t self) = config self.
Proof. unfold stored. destruct (negb _); reflexivity. Qed.

Lemma get_access_token_config env self w :
  config (obj (get_access_token env self w)) = config self.
Proof.
  destruct (get_access_token_obj env self w)
    as [-> | [(tok & e & -> & _) | (tok & n & Hf & Hs & Hfit)]];
    [reflexivity | reflexivity |].
  rewrite (get_access_token_success _ _ _ _ _ Hf Hs Hfit). apply config_stored.
Qed.

Lemma reachable_config a c k n self :
  reachable a c k n self ->
  config self = (a, c, k, "https://zoom.us/oauth/token").
Proof.
  induction 1 as [|env self w _ IH|token env self w _ IH].
  - reflexivity.
  - rewrite get_access_token_config. exact IH.
  - rewrite set_parent_token_run. cbn [obj].
    destruct (negb _); exact IH.
Qed.

(** * The claims *)

(** C1. When a token is cached (the test [self.access_token] of line 41
    passes) and the clock reads strictly less than [token_expires_at], the
    call returns the cached token ([str] of it, which is the token itself
    when it is a string), no request is sent, and the object (cached value
    and expiry included) is left as it was. *)
Theorem C1_cached_token_served env self w :
  py_truthy (access_token self) = true ->
  clock env (ticks w) < token_expires_at self ->
  let o := get_access_token env self w in
  res o = Ok (py_str (access_token self)) /\
  (forall t, access_token self = PyStr t -> res o = Ok t) /\
  sent (world o) = sent w /\
  obj o = self.
Proof.
  intros Ht Hlt o. subst o.
  rewrite get_access_token_hit by (apply is_fresh_true; auto).
  cbn. repeat split; auto.
  intros t ->. reflexivity.
Qed.

(** C5. When no token is cached, or the expiry of the cached token has
    passed, the call hands exactly one request to the token endpoint:
    the list of requests sent grows by the one request of lines 44-50,
    whatever the endpoint answers. *)
Theorem C5_refresh_sends_exactly_one_request env self w :
  py_truthy (access_token self) = false \/
  token_expires_at self <= clock env (ticks w) ->
  sent (world (get_access_token env self w)) = sent w ++ [token_request self].
Proof.
  intros H. apply get_access_token_miss_sent, is_fresh_false, H.
Qed.

(** C7. For an object built by the constructor with account id [a], client
    id [c] and client secret [k] and used in any way since, a refreshing
    call sends a POST to https://zoom.us/oauth/token with the header
    Content-Type: application/x-www-form-urlencoded, basic authentication
    [(c, k)], and the form fields grant_type=account_credentials and
    account_id=[a]. *)
Theorem C7_token_request_shape a c k n env self w :
  reachable a c k n self ->
  py_truthy (access_token self) = false \/
  token_expires_at self <= clock env (ticks w) ->
  sent (world (get_access_token env self w))
  = sent w ++
    [mkRequest "POST" "https://zoom.us/oauth/token"
       [("Content-Type", "application/x-www-form-urlencoded")]
       [("grant_type", Some "account_credentials"); ("account_id", a)]
       (c, k)].
Proof.
  intros Hr H.
  rewrite get_access_token_miss_sent by (apply is_fresh_false, H).
  apply reachable_config in Hr. unfold config in Hr.
  unfold token_request. inversion Hr. reflexivity.
Qed.

(** C9. [_set_parent_token] with the empty string leaves the object, and so
    the parent's private field, as it was; with any token, the field
    afterwards is the token if it is non-empty and the old field otherwise. *)
Theorem C9_set_parent_token_guard token env self w :
  obj (_set_parent_token "" env self w) = self /\
  _ZoomTool__access_token (obj (_set_parent_token token env self w))
  = if String.eqb token "" then _ZoomTool__access_token self else Some token.
Proof.
  rewrite !set_parent_token_run. cbn [obj]. split; [reflexivity|].
  destruct (String.eqb token ""); reflexivity.
Qed.

(** C2, as stated, fails: a response whose status is not 2xx need not be an
    error for [raise_for_status].  With "OLD" cached and expired, a reply
    of status 300 carrying a token is taken as a success: the call returns
    "NEW" and overwrites both the cached value and the expiry. *)
Lemma C2_counterexample_status_300 :
  let o := get_access_token env_300 tool_old quiet in
  (access_token tool_old = PyStr "OLD" /\ token_expires_at tool_old = 900) /\
  token_expires_at tool_old <= clock env_300 (ticks quiet) /\
  (exists r, reply env_300 tool_old quiet = PostReturns r /\
             status_code r = 300 /\ ~ 200 <= status_code r < 300) /\
  res o = Ok "NEW" /\
  access_token (obj o) = PyStr "NEW" /\
  token_expires_at (obj o) = 4541 /\
  ~ (res o = Ok "" /\ obj o = tool_old).
Proof.
  cbv zeta. repeat split; try (vm_compute; congruence).
  - eexists. split; [reflexivity|]. split; [reflexivity|]. cbn. lia.
  - intros [H _]. vm_compute in H. discriminate.
Qed.

(** C2, amended: on the refresh path, when [requests.post] raises a
    [RequestException] (a transport failure) or the response has a status
    from 400 to 599 (such as 401), the call returns the empty string rather
    than raising, appends one message to the error log, and leaves the whole
    object, cached token and expiry included, as it was. *)
Theorem C2_failed_exchange_keeps_cache env self w :
  py_truthy (access_token self) = false \/
  token_expires_at self <= clock env (ticks w) ->
  exchange_fails env self w ->
  let o := get_access_token env self w in
  res o = Ok "" /\
  obj o = self /\
  exists e, is_RequestException e = true /\
            logged (world o)
            = logged w ++ ["Error fetching access token: " +:+ exn_str e].
Proof.
  intros H Hf o. subst o.
  destruct (get_access_token_failure env self w) as (e & He & ->);
    [apply is_fresh_false, H | exact Hf |].
  cbn. repeat split. exists e. rewrite logged_after_check. auto.
Qed.

(** C4, as stated, fails: when the token of a successful exchange is the
    empty string, the guard of [_set_parent_token] skips the write, and the
    parent keeps the token it had ("OLD" here) while the cache holds "". *)
Lemma C4_counterexample_empty_token :
  let o := get_access_token env_empty tool_old quiet in
  token_expires_at tool_old <= clock env_empty (ticks quiet) /\
  exchange_succeeds env_empty tool_old quiet (PyStr "") 3600 /\
  res o = Ok "" /\
  access_token (obj o) = PyStr "" /\
  _ZoomTool__access_token (obj o) = Some "OLD" /\
  _ZoomTool__access_token (obj o) <> Some "".
Proof.
  cbv zeta. repeat split; try (vm_compute; congruence).
  eexists _, _, (PyInt 3600). repeat split; reflexivity.
Qed.

(** C4, amended: when the exchange succeeds with token [tok] and a lifetime
    [lifetime] that line 56 can add to the clock (an integer that fits a
    float), the call caches [tok], sets the expiry to the clock reading of
    line 56 plus [lifetime] minus 60, returns [str(tok)], and writes
    [str(tok)] into the parent's private field when it is non-empty; an
    empty token leaves that field as it was. *)
Theorem C4_successful_exchange_stores env self w tok lifetime :
  py_truthy (access_token self) = false \/
  token_expires_at self <= clock env (ticks w) ->
  exchange_succeeds env self w tok lifetime ->
  fits_float lifetime = true ->
  let o := get_access_token env self w in
  access_token (obj o) = tok /\
  token_expires_at (obj o) = issue_time env self w + lifetime - 60 /\
  _ZoomTool__access_token (obj o)
  = (if String.eqb (py_str tok) "" then _ZoomTool__access_token self
     else Some (py_str tok)) /\
  res o = Ok (py_str tok).
Proof.
  intros H Hs Hfit o. subst o.
  rewrite (get_access_token_success env self w tok lifetime)
    by success_side.
  cbn [obj res]. unfold stored.
  destruct (String.eqb (py_str tok) ""); cbn; auto.
Qed.

(** Calls served from the cache change nothing but the number of clock
    readings. *)
Lemma call_n_hits env self k : forall w,
  py_truthy (access_token self) = true ->
  (forall i, (i < k)%nat ->
     clock env (ticks w + i) < token_expires_at self) ->
  call_n k env self w
  = mkOut (Ok (repeat (py_str (access_token self)) k)) self
          (mkWorld (ticks w + k) (sent w) (logged w)).
Proof.
  induction k as [|k IH]; intros w Ht Hlt.
  - cbn. unfold ret. rewrite Nat.add_0_r. destruct w; reflexivity.
  - cbn [call_n]. unfold bind at 1.
    rewrite get_access_token_hit.
    2:{ apply is_fresh_true. split; [exact Ht|].
        specialize (Hlt O ltac:(lia)). rewrite Nat.add_0_r in Hlt. exact Hlt. }
    cbn [res obj world]. unfold bind at 1. rewrite IH; [|exact Ht|].
    + cbn. unfold ret. repeat f_equal. lia.
    + intros i Hi. cbn. specialize (Hlt (S i) ltac:(lia)).
      rewrite Nat.add_succ_r in Hlt. exact Hlt.
Qed.

Lemma stored_cache tok t self :
  access_token (stored tok t self) = tok /\
  token_expires_at (stored tok t self) = t.
Proof. unfold stored. destruct (negb _); split; reflexivity. Qed.

Lemma py_truthy_str T : T <> "" -> py_truthy (PyStr T) = true.
Proof.
  intros H. cbn. destruct (String.eqb T "") eqn:E; [|reflexivity].
  apply String.eqb_eq in E. contradiction.
Qed.

(** C3. After an exchange that succeeds at time [t0] (the clock reading of
    line 56) with the body {"access_token": T, "expires_in": 3600}: any run
    of calls whose clock readings are all strictly less than
    [t0 + 3600 - 60] returns T each time, sends nothing and leaves the
    object as it was; and a call whose clock reads [t0 + 3600 - 60] or more
    takes the refresh path, sending a request. *)
Theorem C3_token_served_until_margin env self w T :
  T <> "" ->
  py_truthy (access_token self) = false \/
  token_expires_at self <= clock env (ticks w) ->
  exchange_succeeds env self w (PyStr T) 3600 ->
  let o := get_access_token env self w in
  let t0 := issue_time env self w in
  res o = Ok T /\
  (forall k,
     (forall i, (i < k)%nat ->
        clock env (ticks (world o) + i) < t0 + 3600 - 60) ->
     let o' := call_n k env (obj o) (world o) in
     res o' = Ok (repeat T k) /\
     obj o' = obj o /\
     sent (world o') = sent (world o)) /\
  (forall w',
     t0 + 3600 - 60 <= clock env (ticks w') ->
     sent (world (get_access_token env (obj o) w'))
     = sent w' ++ [token_request (obj o)]).
Proof.
  intros HT H Hs o t0. subst o t0.
  rewrite (get_access_token_success env self w (PyStr T) 3600)
    by success_side.
  cbn [res obj world py_str].
  destruct (stored_cache (PyStr T) (issue_time env self w + 3600 - 60) self)
    as [Htok Hexp].
  split; [reflexivity|]. split.
  - intros k Hk. cbv zeta. rewrite call_n_hits.
    + rewrite Htok. cbn. auto.
    + rewrite Htok. apply py_truthy_str, HT.
    + rewrite Hexp. exact Hk.
  - intros w' Hw'. apply get_access_token_miss_sent, is_fresh_false.
    right. rewrite Hexp. exact Hw'.
Qed.

(** C8. After an exchange that succeeds at time [t0] with a lifetime of 10
    seconds, the expiry is [t0 + 10 - 60], and the very next call, made
    when the clock has not run backwards, does not serve the cached token:
    it sends a second request to the token endpoint. *)
Theorem C8_short_lifetime_expires_at_once env self w tok :
  py_truthy (access_token self) = false \/
  token_expires_at self <= clock env (ticks w) ->
  exchange_succeeds env self w tok 10 ->
  issue_time env self w
  <= clock env (ticks (world (get_access_token env self w))) ->
  let o := get_access_token env self w in
  token_expires_at (obj o) = issue_time env self w + 10 - 60 /\
  sent (world (get_access_token env (obj o) (world o)))
  = sent w ++ [token_request self; token_request (obj o)].
Proof.
  intros H Hs Hclock o. subst o.
  pose proof (get_access_token_miss_sent env self w
                ltac:(apply is_fresh_false, H)) as Hsent.
  revert Hclock Hsent.
  rewrite (get_access_token_success env self w tok 10)
    by success_side.
  cbn [obj world]. intros Hclock Hsent.
  destruct (stored_cache tok (issue_time env self w + 10 - 60) self)
    as [_ Hexp].
  split; [exact Hexp|].
  rewrite get_access_token_miss_sent.
  - rewrite Hsent, <- app_assoc. reflexivity.
  - apply is_fresh_false. right. rewrite Hexp. lia.
Qed.

(** C10. After a successful exchange whose token is the empty string, the
    cache holds the empty string, and every call made in that state, at any
    clock reading (before the expiry too), takes the refresh path and sends
    a request: line 41 wants a truthy cached value. *)
Theorem C10_empty_token_never_served env self w lifetime w' :
  py_truthy (access_token self) = false \/
  token_expires_at self <= clock env (ticks w) ->
  exchange_succeeds env self w (PyStr "") lifetime ->
  let o := get_access_token env self w in
  access_token (obj o) = PyStr "" /\
  is_fresh env (obj o) w' = false /\
  sent (world (get_access_token env (obj o) w'))
  = sent w' ++ [token_request (obj o)].
Proof.
  intros H Hs o. subst o. apply is_fresh_false in H.
  assert (Hcached : access_token (obj (get_access_token env self w))
                    = PyStr "").
  { destruct (fits_float lifetime) eqn:Hfit.
    - rewrite (get_access_token_success env self w (PyStr "") lifetime)
        by assumption.
      apply stored_cache.
    - rewrite (get_access_token_overflow env self w (PyStr "") lifetime)
        by assumption.
      reflexivity. }
  assert (Hf : is_fresh env (obj (get_access_token env self w)) w' = false)
    by (apply is_fresh_false; left; rewrite Hcached; reflexivity).
  split; [exact Hcached|]. split; [exact Hf|].
  apply get_access_token_miss_sent, Hf.
Qed.

(** ** The invariant of the cache *)

Lemma cache_invariant_init env a c k n w :
  cache_invariant env (__init__ a c k n) w.
Proof. intros H. cbn in H. contradiction. Qed.

(** The invariant speaks of the past, so it survives when the world moves on
    and the object does not. *)
Lemma cache_invariant_mono env self w w' :
  cache_invariant env self w ->
  (ticks w <= ticks w')%nat ->
  (exists l, sent w' = sent w ++ l) ->
  cache_invariant env self w'.
Proof.
  intros Hinv Hticks [l Hl] Hsome.
  destruct (Hinv Hsome)
    as (i & j & req & r & fields & e & n & Hi & Hj & Hrest).
  exists i, j, req, r, fields, e, n.
  split; [lia|]. split; [|exact Hrest].
  rewrite Hl. apply lookup_app_l_Some. exact Hj.
Qed.

Lemma ticks_after_check self w : (ticks w <= ticks (after_check self w))%nat.
Proof. unfold after_check. destruct (py_truthy _); cbn; lia. Qed.

Lemma get_access_token_world env self w :
  let o := get_access_token env self w in
  (ticks w <= ticks (world o))%nat /\ exists l, sent (world o) = sent w ++ l.
Proof.
  cbv zeta. split.
  - pose proof (ticks_after_check self w) as Hc.
    destruct (is_fresh env self w) eqn:Hf.
    + rewrite get_access_token_hit by exact Hf. cbn. lia.
    + rewrite (get_access_token_miss env self w Hf). cbv zeta.
      repeat case_innermost; rewrite ?ticks_caught; cbn; lia.
  - destruct (is_fresh env self w) eqn:Hf.
    + rewrite get_access_token_hit by exact Hf. exists []. cbn.
      rewrite app_nil_r. reflexivity.
    + rewrite get_access_token_miss_sent by exact Hf. eauto.
Qed.

(** Every call that leaves the object alone when it raises keeps the
    invariant; only an exception raised after the assignment of line 54 can
    break it. *)
Lemma cache_invariant_preserved env self w :
  cache_invariant env self w ->
  (forall e, res (get_access_token env self w) = Raise e ->
             obj (get_access_token env self w) = self) ->
  cache_invariant env (obj (get_access_token env self w))
                  (world (get_access_token env self w)).
Proof.
  intros Hinv Hraise.
  destruct (get_access_token_world env self w) as [Hticks Hsent].
  destruct (get_access_token_obj env self w)
    as [Heq | [(tok & e & _ & Hres) | (tok & n & Hf & Hs & Hfit)]].
  - rewrite Heq. eapply cache_invariant_mono; eauto.
  - rewrite (Hraise e Hres). eapply cache_invariant_mono; eauto.
  - clear Hticks Hsent Hraise.
    rewrite (get_access_token_success _ _ _ _ _ Hf Hs Hfit). cbn [obj world].
    destruct Hs as (r & fields & e & Hr & _ & Hb & Ht & He & Hn).
    destruct (stored_cache tok (issue_time env self w + n - 60) self)
      as [Htok Hexp].
    intros _.
    exists (ticks (after_check self w)), (length (sent w)),
           (token_request self), r, fields, e, n.
    rewrite Htok, Hexp. cbn. rewrite sent_after_check.
    repeat split; auto.
    apply list_lookup_middle. reflexivity.
Qed.

(** In particular, every call that returns keeps the invariant. *)
Lemma cache_invariant_returns env self w x :
  cache_invariant env self w ->
  res (get_access_token env self w) = Ok x ->
  cache_invariant env (obj (get_access_token env self w))
                  (world (get_access_token env self w)).
Proof.
  intros Hinv Hok. apply cache_invariant_preserved; [exact Hinv|].
  intros e He. congruence.
Qed.

(** C6, on the code: a reply of status 200 that declares a token and no
    lifetime makes a call on a fresh tool raise [KeyError] after line 54 has
    run.  The token is then cached while [token_expires_at] is still the 0
    of the constructor, and the invariant, which held before the call, does
    not hold after it. *)
Theorem C6_invariant_broken_without_lifetime :
  let o := get_access_token env_no_lifetime zoom_tools quiet in
  cache_invariant env_no_lifetime zoom_tools quiet /\
  res o = Raise (KeyError "expires_in") /\
  access_token (obj o) = PyStr "T" /\
  token_expires_at (obj o) = 0 /\
  sent (world o) = [token_request zoom_tools] /\
  ~ cache_invariant env_no_lifetime (obj o) (world o).
Proof.
  cbv zeta. split; [apply cache_invariant_init|].
  repeat split; try (vm_compute; congruence).
  intros Hinv.
  destruct Hinv as (i & j & req & r & fields & e & n & _ & _ & Hr & Hb & _ & He & _).
  { vm_compute. discriminate. }
  cbn in Hr. inversion Hr; subst r. cbn in Hb. inversion Hb; subst fields.
  vm_compute in He. discriminate.
Qed.

(** * The claims at concrete inputs *)

Ltac succeeds_with e :=
  eexists _, _, e; repeat split; reflexivity.

(** C1 at a concrete input: "OLD" is cached until 900 and the clock reads
    100. *)
Lemma C1_witness :
  py_truthy (access_token tool_old) = true /\
  clock env_early (ticks quiet) < token_expires_at tool_old /\
  res (get_access_token env_early tool_old quiet) = Ok "OLD" /\
  sent (world (get_access_token env_early tool_old quiet)) = [] /\
  obj (get_access_token env_early tool_old quiet) = tool_old.
Proof.
  split; [reflexivity|]. split; [reflexivity|].
  destruct (C1_cached_token_served env_early tool_old quiet)
    as (H1 & _ & H2 & H3); [reflexivity | reflexivity |].
  exact (conj H1 (conj H2 H3)).
Defined.

(** C2 (amended) at a concrete input: "OLD" has expired and the endpoint
    answers 401. *)
Lemma C2_witness :
  token_expires_at tool_old <= clock env_401 (ticks quiet) /\
  exchange_fails env_401 tool_old quiet /\
  res (get_access_token env_401 tool_old quiet) = Ok "" /\
  obj (get_access_token env_401 tool_old quiet) = tool_old.
Proof.
  assert (He : token_expires_at tool_old <= clock env_401 (ticks quiet))
    by (vm_compute; discriminate).
  assert (Hf : exchange_fails env_401 tool_old quiet).
  { right. eexists. split; [reflexivity|]. cbn. lia. }
  split; [exact He|]. split; [exact Hf|].
  destruct (C2_failed_exchange_keeps_cache env_401 tool_old quiet
              (or_intror He) Hf) as (H1 & H2 & _).
  exact (conj H1 H2).
Defined.

(** C3 at a concrete input: a fresh tool, the token "T" valid for an hour,
    issued at time 1000. *)
Lemma C3_witness :
  "T" <> "" /\
  py_truthy (access_token zoom_tools) = false /\
  exchange_succeeds env_T zoom_tools quiet (PyStr "T") 3600 /\
  res (get_access_token env_T zoom_tools quiet) = Ok "T".
Proof.
  assert (Hne : "T" <> "") by discriminate.
  assert (Hs : exchange_succeeds env_T zoom_tools quiet (PyStr "T") 3600)
    by succeeds_with (PyInt 3600).
  split; [exact Hne|]. split; [reflexivity|]. split; [exact Hs|].
  exact (proj1 (C3_token_served_until_margin env_T zoom_tools quiet "T"
                  Hne (or_introl eq_refl) Hs)).
Defined.

(** C4 (amended) at a concrete input: a fresh tool and the token "T". *)
Lemma C4_witness :
  py_truthy (access_token zoom_tools) = false /\
  exchange_succeeds env_T zoom_tools quiet (PyStr "T") 3600 /\
  fits_float 3600 = true /\
  access_token (obj (get_access_token env_T zoom_tools quiet)) = PyStr "T" /\
  token_expires_at (obj (get_access_token env_T zoom_tools quiet)) = 4540 /\
  _ZoomTool__access_token (obj (get_access_token env_T zoom_tools quiet))
  = Some "T" /\
  res (get_access_token env_T zoom_tools quiet) = Ok "T".
Proof.
  assert (Hs : exchange_succeeds env_T zoom_tools quiet (PyStr "T") 3600)
    by succeeds_with (PyInt 3600).
  split; [reflexivity|]. split; [exact Hs|]. split; [reflexivity|].
  exact (C4_successful_exchange_stores env_T zoom_tools quiet (PyStr "T") 3600
           (or_introl eq_refl) Hs eq_refl).
Defined.

(** C5 at a concrete input: a fresh tool has no token. *)
Lemma C5_witness :
  py_truthy (access_token zoom_tools) = false /\
  sent (world (get_access_token env_401 zoom_tools quiet))
  = [token_request zoom_tools].
Proof.
  split; [reflexivity|].
  exact (C5_refresh_sends_exactly_one_request env_401 zoom_tools quiet
           (or_introl eq_refl)).
Defined.

(** C7 at a concrete input: the tool of line 70, right after construction. *)
Lemma C7_witness :
  reachable (Some "account") (Some "client") (Some "secret") "zoom_tool"
            zoom_tools /\
  py_truthy (access_token zoom_tools) = false /\
  sent (world (get_access_token env_T zoom_tools quiet))
  = [mkRequest "POST" "https://zoom.us/oauth/token"
       [("Content-Type", "application/x-www-form-urlencoded")]
       [("grant_type", Some "account_credentials");
        ("account_id", Some "account")]
       (Some "client", Some "secret")].
Proof.
  split; [apply reach_init|]. split; [reflexivity|].
  exact (C7_token_request_shape _ _ _ _ env_T zoom_tools quiet
           (reach_init _ _ _ _) (or_introl eq_refl)).
Defined.

(** C8 at a concrete input: the scenario of the specification, the token
    "abc" valid for ten seconds, issued at time 1000; the next call reads
    the clock at 1001. *)
Lemma C8_witness :
  py_truthy (access_token zoom_tools) = false /\
  exchange_succeeds env_abc zoom_tools quiet (PyStr "abc") 10 /\
  issue_time env_abc zoom_tools quiet
  <= clock env_abc (ticks (world (get_access_token env_abc zoom_tools quiet))) /\
  token_expires_at (obj (get_access_token env_abc zoom_tools quiet)) = 950 /\
  length (sent (world (get_access_token env_abc
                         (obj (get_access_token env_abc zoom_tools quiet))
                         (world (get_access_token env_abc zoom_tools quiet)))))
  = 2%nat.
Proof.
  assert (Hs : exchange_succeeds env_abc zoom_tools quiet (PyStr "abc") 10)
    by succeeds_with (PyInt 10).
  assert (Hc : issue_time env_abc zoom_tools quiet
               <= clock env_abc
                    (ticks (world (get_access_token env_abc zoom_tools quiet))))
    by (vm_compute; discriminate).
  split; [reflexivity|]. split; [exact Hs|]. split; [exact Hc|].
  destruct (C8_short_lifetime_expires_at_once env_abc zoom_tools quiet
              (PyStr "abc") (or_introl eq_refl) Hs Hc) as [H1 H2].
  split; [exact H1|]. rewrite H2. reflexivity.
Defined.

(** C10 at a concrete input: the empty token cached until 4540, and a call
    at time 1001. *)
Lemma C10_witness :
  py_truthy (access_token zoom_tools) = false /\
  exchange_succeeds env_empty zoom_tools quiet (PyStr "") 3600 /\
  clock env_empty (ticks (ticked quiet))
  < token_expires_at (obj (get_access_token env_empty zoom_tools quiet)) /\
  access_token (obj (get_access_token env_empty zoom_tools quiet)) = PyStr "" /\
  sent (world (get_access_token env_empty
                 (obj (get_access_token env_empty zoom_tools quiet))
                 (ticked quiet)))
  = [token_request zoom_tools].
Proof.
  assert (Hs : exchange_succeeds env_empty zoom_tools quiet (PyStr "") 3600)
    by succeeds_with (PyInt 3600).
  split; [reflexivity|]. split; [exact Hs|]. split; [reflexivity|].
  destruct (C10_empty_token_never_served env_empty zoom_tools quiet 3600
              (ticked quiet) (or_introl eq_refl) Hs) as (H1 & _ & H2).
  exact (conj H1 H2).
Defined.

(** * Further properties of the two methods *)

(** ** What [str] and truthiness have to do with each other *)

Lemma pretty_N_go_length (x : N) : forall s,
  (String.length s <= String.length (pretty_N_go x s))%nat.
Proof.
  induction (N.lt_wf_0 x) as [x _ IH]. intros s.
  destruct (N.eq_dec x 0%N) as [->|Hx].
  - rewrite pretty_N_go_0. lia.
  - rewrite pretty_N_go_step by lia.
    etransitivity; [|apply IH; apply N.div_lt; lia]. cbn. lia.
Qed.

Lemma pretty_Z_nonempty (n : Z) : pretty n <> "".
Proof.
  destruct n as [|p|p].
  - discriminate.
  - unfold pretty, pretty_Z, pretty, pretty_positive, pretty, pretty_N.
    destruct (decide (N.pos p = 0%N)) as [E|_]; [discriminate|].
    rewrite pretty_N_go_step by lia. intros E.
    pose proof (pretty_N_go_length (N.pos p `div` 10)
                  (String (pretty_N_char (N.pos p `mod` 10)) "")) as Hlen.
    rewrite E in Hlen. cbn in Hlen. lia.
  - discriminate.
Qed.

(** Only the empty string has an empty [str]. *)
Lemma py_str_empty v : py_str v = "" -> v = PyStr "".
Proof.
  destruct v as [|[]|n|s]; cbn; try discriminate.
  - intros E. destruct (pretty_Z_nonempty n E).
  - intros ->. reflexivity.
Qed.

Lemma py_truthy_not_none v : py_truthy v = true -> v <> PyNone.
Proof. intros H ->. discriminate. Qed.


(** ** Every call has one of the five shapes *)

Lemma raise_for_status_raises r e :
  raise_for_status r = Raise e -> is_RequestException e = true.
Proof.
  unfold raise_for_status.
  destruct (_ && _); [intros H; inversion H; reflexivity|].
  destruct (_ && _); intros H; inversion H; reflexivity.
Qed.

Lemma response_json_raises r e :
  response_json r = Raise e -> is_RequestException e = true.
Proof.
  unfold response_json. destruct (body r); intros H; inversion H.
  reflexivity.
Qed.

Lemma caught_request_exception e self w :
  is_RequestException e = true ->
  caught e self w = mkOut (Ok "") self (error_logged e w).
Proof. intros H. unfold caught. rewrite H. reflexivity. Qed.

Lemma caught_other e self w :
  is_RequestException e = false ->
  caught e self w = mkOut (Raise e) self w.
Proof. intros H. unfold caught. rewrite H. reflexivity. Qed.

Lemma get_access_token_outcome env self w :
  call_outcome env self w (get_access_token env self w).
Proof.
  destruct (is_fresh env self w) eqn:Hf.
  { rewrite get_access_token_hit by exact Hf. apply served, Hf. }
  rewrite (get_access_token_miss env self w Hf). cbv zeta.
  destruct (reply env self w) as [e|r] eqn:Hr.
  { destruct (is_RequestException e) eqn:He.
    - rewrite caught_request_exception by exact He. apply failed; assumption.
    - rewrite caught_other by exact He. apply raised_before; assumption. }
  destruct (raise_for_status r) as [[]|e] eqn:Hs.
  2:{ apply raise_for_status_raises in Hs.
      rewrite caught_request_exception by exact Hs. apply failed; assumption. }
  destruct (response_json r) as [j|e] eqn:Hj.
  2:{ apply response_json_raises in Hj.
      rewrite caught_request_exception by exact Hj. apply failed; assumption. }
  destruct (py_getitem j "access_token") as [tok|e] eqn:Ht.
  2:{ apply py_getitem_raises in Ht.
      rewrite caught_other by exact Ht. apply raised_before; assumption. }
  destruct (py_getitem j "expires_in") as [ei|e] eqn:Ei.
  2:{ apply py_getitem_raises in Ei.
      rewrite caught_other by exact Ei. apply raised_after; auto. }
  destruct (py_add_sub (issue_time env self w) ei 60) as [t|e] eqn:Et.
  2:{ apply py_add_sub_raises in Et.
      rewrite caught_other by exact Et. apply raised_after; auto. }
  apply response_json_ok in Hj.
  apply py_getitem_ok in Ht as (fields & -> & Ht).
  apply py_getitem_ok in Ei as (fields' & Heq & Ei). injection Heq as <-.
  apply py_add_sub_ok in Et as (n & Hn & Hfit & ->).
  apply refreshed; [assumption| |exact Hfit]. exists r, fields, ei. auto 10.
Qed.

(** ** Exceptions, the log and the empty string *)

(** X1. The handler of line 60 lets no [RequestException] through: when a
    call raises, the exception is of another class (a [KeyError], a
    [TypeError] or an [OverflowError] from lines 54-56, or whatever else
    [requests.post] raised), nothing has been logged, and the request has
    been sent. *)
Theorem raises_no_request_exception env self w e :
  res (get_access_token env self w) = Raise e ->
  is_RequestException e = false /\
  logged (world (get_access_token env self w)) = logged w /\
  sent (world (get_access_token env self w)) = sent w ++ [token_request self].
Proof.
  pose proof (get_access_token_outcome env self w) as Hc.
  destruct Hc as [Hf|e' Hf He|e' Hf He|tok e' w' Hf He Hw|tok n Hf Hs Hfit];
    cbn [res world]; intros Hres; try discriminate;
    injection Hres as ->; (split; [exact He|]).
  - cbn. rewrite logged_after_check, sent_after_check. auto.
  - destruct Hw as [-> | ->]; cbn;
      rewrite logged_after_check, sent_after_check; auto.
Qed.

(** X2. A call writes to the error log at most once, and only on the way to
    returning the empty string with the object untouched: the log is as it
    was, or it has grown by one message "Error fetching access token: ..."
    about a [RequestException], the result is the empty string and the
    object is unchanged. *)
Theorem logs_only_with_empty_result env self w :
  let o := get_access_token env self w in
  logged (world o) = logged w \/
  exists e,
    is_RequestException e = true /\
    logged (world o)
    = logged w ++ ["Error fetching access token: " +:+ exn_str e] /\
    res o = Ok "" /\
    obj o = self.
Proof.
  cbv zeta. pose proof (get_access_token_outcome env self w) as Hc.
  destruct Hc as [Hf|e Hf He|e Hf He|tok e w' Hf He Hw|tok n Hf Hs Hfit];
    cbn [res obj world].
  - left. reflexivity.
  - right. exists e. cbn. rewrite logged_after_check. auto.
  - left. cbn. apply logged_after_check.
  - left. destruct Hw as [-> | ->]; cbn; apply logged_after_check.
  - left. cbn. apply logged_after_check.
Qed.


(** X4. A non-empty result is the cached token: when a call returns a
    non-empty string, [str] of the value cached after the call is that
    string, and nothing has been logged. *)
Theorem result_is_cached_token env self w x :
  res (get_access_token env self w) = Ok x ->
  x <> "" ->
  py_str (access_token (obj (get_access_token env self w))) = x /\
  logged (world (get_access_token env self w)) = logged w.
Proof.
  pose proof (get_access_token_outcome env self w) as Hc.
  destruct Hc as [Hf|e Hf He|e Hf He|tok e w' Hf He Hw|tok n Hf Hs Hfit];
    cbn [res obj world]; intros Hres Hx; try discriminate;
    injection Hres as Hres.
  - auto.
  - congruence.
  - destruct (stored_cache tok (issue_time env self w + n - 60) self)
      as [-> _].
    split; [exact Hres|]. cbn. apply logged_after_check.
Qed.

(** ** Replies the decoding of lines 53-56 does not expect *)

(** X5. A reply with a status that [raise_for_status] accepts and a JSON
    body that is not an object, or is an object without "access_token",
    makes the call raise to its caller: the exception is not a
    [RequestException] (it is [KeyError("access_token")] when the body is
    an object), the object is unchanged and nothing is logged. *)
Theorem reply_without_token_raises env self w r j :
  py_truthy (access_token self) = false \/
  token_expires_at self <= clock env (ticks w) ->
  reply env self w = PostReturns r ->
  ~ 400 <= status_code r < 600 ->
  body r = Some j ->
  lacks_token j ->
  let o := get_access_token env self w in
  (exists e,
     res o = Raise e /\
     is_RequestException e = false /\
     (forall fields, j = JObject fields -> e = KeyError "access_token")) /\
  obj o = self /\
  logged (world o) = logged w.
Proof.
  intros H Hr Hst Hb Hj. cbv zeta.
  apply is_fresh_false in H. apply raise_for_status_ok in Hst.
  rewrite (get_access_token_miss env self w H), Hr, Hst. cbv zeta.
  unfold response_json. rewrite Hb.
  destruct (py_getitem j "access_token") as [tok|e] eqn:Ht.
  { apply py_getitem_ok in Ht as (fields & -> & Ht). cbn in Hj. congruence. }
  pose proof (py_getitem_raises _ _ _ Ht) as He.
  rewrite caught_other by exact He. cbn [res obj world].
  split; [|split; [reflexivity|cbn; apply logged_after_check]].
  exists e. split; [reflexivity|]. split; [exact He|].
  intros fields ->. cbn in Ht, Hj. rewrite Hj in Ht. congruence.
Qed.

(** X6. A reply that declares a token and no usable lifetime (no
    "expires_in", or one that is not a number) makes the call raise after
    line 54 has run: the new token is cached, while the expiry and the
    parent's private field are those of before the call; nothing is
    logged. *)
Theorem reply_without_lifetime_tears_cache env self w r fields tok :
  py_truthy (access_token self) = false \/
  token_expires_at self <= clock env (ticks w) ->
  reply env self w = PostReturns r ->
  ~ 400 <= status_code r < 600 ->
  body r = Some (JObject fields) ->
  fields !! "access_token" = Some tok ->
  fields !! "expires_in" = None \/
  (exists v, fields !! "expires_in" = Some v /\ py_number v = None) ->
  let o := get_access_token env self w in
  (exists e, res o = Raise e /\ is_RequestException e = false) /\
  access_token (obj o) = tok /\
  token_expires_at (obj o) = token_expires_at self /\
  _ZoomTool__access_token (obj o) = _ZoomTool__access_token self /\
  logged (world o) = logged w.
Proof.
  intros H Hr Hst Hb Ht He. cbv zeta.
  apply is_fresh_false in H. apply raise_for_status_ok in Hst.
  rewrite (get_access_token_miss env self w H), Hr, Hst. cbv zeta.
  unfold response_json. rewrite Hb. unfold py_getitem. rewrite Ht.
  destruct He as [He | (v & He & Hv)]; rewrite He.
  - cbn. rewrite logged_after_check. eauto 10.
  - unfold py_add_sub. rewrite Hv. cbn. rewrite logged_after_check. eauto 10.
Qed.

(** X7. A reply with an accepted status and a body that is not JSON is
    handled like a transport failure: [response.json()] raises a
    [RequestException], so the call returns the empty string, logs one
    message and leaves the object as it was. *)
Theorem reply_not_json_is_a_failure env self w r :
  py_truthy (access_token self) = false \/
  token_expires_at self <= clock env (ticks w) ->
  reply env self w = PostReturns r ->
  ~ 400 <= status_code r < 600 ->
  body r = None ->
  let o := get_access_token env self w in
  res o = Ok "" /\
  obj o = self /\
  exists msg,
    logged (world o) = logged w ++ ["Error fetching access token: " +:+ msg].
Proof.
  intros H Hr Hst Hb. cbv zeta.
  apply is_fresh_false in H. apply raise_for_status_ok in Hst.
  rewrite (get_access_token_miss env self w H), Hr, Hst. cbv zeta.
  unfold response_json. rewrite Hb. cbn. rewrite logged_after_check. eauto.
Qed.

(** X8. No call, whichever way it ends, changes what the constructor was
    given or the endpoint: the account id, the client id, the client
    secret, the name and the token URL are those of before the call. *)
Theorem configuration_never_changes env self w :
  let o := get_access_token env self w in
  account_id (obj o) = account_id self /\
  client_id (obj o) = client_id self /\
  client_secret (obj o) = client_secret self /\
  name (obj o) = name self /\
  token_url (obj o) = token_url self.
Proof.
  cbv zeta. pose proof (get_access_token_outcome env self w) as Hc.
  destruct Hc as [Hf|e Hf He|e Hf He|tok e w' Hf He Hw|tok n Hf Hs Hfit];
    cbn [obj]; auto 10.
  unfold stored. destruct (negb _); cbn; auto 10.
Qed.

(** ** Objects none of whose calls has raised *)

(** X9. For an object built by the constructor and used only through calls
    of [get_access_token] that returned, the invariant of the cache holds
    at every moment: a cached value comes with the expiry computed from the
    lifetime the endpoint declared for it. *)
Theorem history_cache_invariant env self w :
  history env self w -> cache_invariant env self w.
Proof.
  induction 1 as [a c k n|self w x _ IH Hres].
  - apply cache_invariant_init.
  - eapply cache_invariant_returns; eassumption.
Qed.

Lemma history_in_sync env self w : history env self w -> in_sync self.
Proof.
  induction 1 as [a c k n|self w x _ IH Hres].
  - intros Hnone. cbn in Hnone. contradiction.
  - revert Hres. pose proof (get_access_token_outcome env self w) as Hc.
    destruct Hc as [Hf|e Hf He|e Hf He|tok e w' Hf He Hw|tok n Hf Hs Hfit];
      cbn [res obj]; intros Hres; try discriminate; try exact IH.
    intros _. unfold stored.
    destruct (String.eqb (py_str tok) "") eqn:E; cbn.
    + apply String.eqb_eq in E. intros Hne. contradiction.
    + reflexivity.
Qed.

(** X10. For such an object, the wrapped client sees every token its owner
    is given: whenever a call returns a non-empty string, served from the
    cache or just fetched, the parent's private field holds that string
    after the call. *)
Theorem returned_token_is_in_parent env self w x :
  history env self w ->
  res (get_access_token env self w) = Ok x ->
  x <> "" ->
  _ZoomTool__access_token (obj (get_access_token env self w)) = Some x.
Proof.
  intros Hh. apply history_in_sync in Hh.
  pose proof (get_access_token_outcome env self w) as Hc.
  destruct Hc as [Hf|e Hf He|e Hf He|tok e w' Hf He Hw|tok n Hf Hs Hfit];
    cbn [res obj]; intros Hres Hx; try discriminate;
    injection Hres as <-.
  - apply is_fresh_true in Hf as [Ht _].
    apply Hh; [apply py_truthy_not_none, Ht | exact Hx].
  - contradiction.
  - unfold stored. destruct (String.eqb (py_str tok) "") eqn:E; cbn.
    + apply String.eqb_eq in E. contradiction.
    + reflexivity.
Qed.

(** ** Tokens and lifetimes at the edges *)

(** X11. A token that is JSON [null], [false] or [0], declared with a
    lifetime that fits a float, is handed out as its [str] rendering, a
    non-empty string such as "None", and written to the parent as that
    string; but the cached value is falsy, so it is never served: every
    later call in that state sends a new request, whatever the clock
    reads. *)
Theorem falsy_token_returned_never_served env self w tok lifetime w' :
  py_truthy (access_token self) = false \/
  token_expires_at self <= clock env (ticks w) ->
  exchange_succeeds env self w tok lifetime ->
  fits_float lifetime = true ->
  py_truthy tok = false ->
  tok <> PyStr "" ->
  let o := get_access_token env self w in
  res o = Ok (py_str tok) /\
  py_str tok <> "" /\
  _ZoomTool__access_token (obj o) = Some (py_str tok) /\
  sent (world (get_access_token env (obj o) w'))
  = sent w' ++ [token_request (obj o)].
Proof.
  intros H Hs Hfit Hfalsy Hne. cbv zeta.
  rewrite (get_access_token_success env self w tok lifetime)
    by success_side.
  cbn [res obj].
  assert (Hstr : py_str tok <> "") by (intros E; apply Hne, py_str_empty, E).
  split; [reflexivity|]. split; [exact Hstr|]. split.
  - unfold stored. destruct (String.eqb (py_str tok) "") eqn:E; cbn.
    + apply String.eqb_eq in E. contradiction.
    + reflexivity.
  - apply get_access_token_miss_sent, is_fresh_false. left.
    destruct (stored_cache tok (issue_time env self w + lifetime - 60) self)
      as [-> _].
    exact Hfalsy.
Qed.


(** X13. After an exchange that succeeds with a truthy token and any
    lifetime that fits a float, a call made while the clock reads less than
    the issue time plus the lifetime minus 60 gives the same result as the
    refreshing call, reads the clock once, and changes nothing else. *)
Theorem fresh_token_served env self w tok lifetime w' :
  py_truthy (access_token self) = false \/
  token_expires_at self <= clock env (ticks w) ->
  exchange_succeeds env self w tok lifetime ->
  fits_float lifetime = true ->
  py_truthy tok = true ->
  clock env (ticks w') < issue_time env self w + lifetime - 60 ->
  let o := get_access_token env self w in
  get_access_token env (obj o) w' = mkOut (res o) (obj o) (ticked w').
Proof.
  intros H Hs Hfit Ht Hc. cbv zeta.
  rewrite (get_access_token_success env self w tok lifetime)
    by success_side.
  cbn [obj res].
  destruct (stored_cache tok (issue_time env self w + lifetime - 60) self)
    as [Htok Hexp].
  rewrite get_access_token_hit.
  - rewrite Htok. reflexivity.
  - apply is_fresh_true. rewrite Htok, Hexp. auto.
Qed.

(** ** What a call costs, and what it does not depend on *)

(** X14. Whichever way it ends, a call reads the clock at most twice, hands
    at most one request to [requests.post] and logs at most one message;
    it removes nothing from the record of the world. *)
Theorem call_cost_bounds env self w :
  let o := get_access_token env self w in
  (ticks w <= ticks (world o) <= ticks w + 2)%nat /\
  (exists l, sent (world o) = sent w ++ l /\ (length l <= 1)%nat) /\
  (exists l, logged (world o) = logged w ++ l /\ (length l <= 1)%nat).
Proof.
  cbv zeta. pose proof (get_access_token_outcome env self w) as Hc.
  assert (Ht : (ticks w <= ticks (after_check self w) <= ticks w + 1)%nat)
    by (unfold after_check; destruct (py_truthy _); cbn; lia).
  destruct Hc as [Hf|e Hf He|e Hf He|tok e w' Hf He Hw|tok n Hf Hs Hfit];
    cbn [world].
  - cbn. split; [lia|]. split; exists []; rewrite app_nil_r; cbn; auto.
  - cbn. rewrite sent_after_check, logged_after_check.
    split; [lia|]. split; eexists; (split; [reflexivity|cbn; lia]).
  - cbn. rewrite sent_after_check, logged_after_check.
    split; [lia|]. split; [eexists; split; [reflexivity|cbn; lia]|].
    exists []. rewrite app_nil_r. cbn. auto.
  - destruct Hw as [-> | ->]; cbn;
      rewrite sent_after_check, logged_after_check;
      (split; [lia|]);
      (split; [eexists; split; [reflexivity|cbn; lia]|]);
      exists []; rewrite app_nil_r; cbn; auto.
  - cbn. rewrite sent_after_check, logged_after_check.
    split; [lia|]. split; [eexists; split; [reflexivity|cbn; lia]|].
    exists []. rewrite app_nil_r. cbn. auto.
Qed.

(** X15. A failure is not remembered: after a call whose exchange failed
    with a [RequestException], the next call, made when the clock has not
    run backwards, sends the request again. *)
Theorem failure_is_not_cached env self w w' :
  py_truthy (access_token self) = false \/
  token_expires_at self <= clock env (ticks w) ->
  exchange_fails env self w ->
  clock env (ticks w) <= clock env (ticks w') ->
  let o := get_access_token env self w in
  res o = Ok "" /\
  sent (world (get_access_token env (obj o) w'))
  = sent w' ++ [token_request self].
Proof.
  intros H Hf Hc. cbv zeta.
  destruct (get_access_token_failure env self w) as (e & He & ->);
    [apply is_fresh_false, H | exact Hf |].
  cbn [res obj]. split; [reflexivity|].
  apply get_access_token_miss_sent, is_fresh_false.
  destruct H as [H|H]; [left; exact H | right; lia].
Qed.

(** X16. [get_access_token] never reads the parent's private field: a call
    of [_set_parent_token] made before it, with any token, changes neither
    its result, nor what it does to the world, nor the cached value and
    expiry it leaves. *)
Theorem parent_field_is_never_read token env self w :
  let self' := obj (_set_parent_token token env self w) in
  let o := get_access_token env self w in
  let o' := get_access_token env self' w in
  res o' = res o /\
  world o' = world o /\
  access_token (obj o') = access_token (obj o) /\
  token_expires_at (obj o') = token_expires_at (obj o).
Proof.
  cbv zeta. rewrite set_parent_token_run. cbn [obj].
  destruct (negb (String.eqb token "")); [|auto].
  set (self' := set_ZoomTool__access_token token self).
  destruct (is_fresh env self w) eqn:Hf.
  - rewrite (get_access_token_hit env self w Hf).
    rewrite (get_access_token_hit env self' w Hf). cbn. auto.
  - rewrite (get_access_token_miss env self w Hf).
    rewrite (get_access_token_miss env self' w Hf). cbv zeta.
    change (reply env self' w) with (reply env self w).
    change (issue_time env self' w) with (issue_time env self w).
    change (posted self' (after_check self' w))
      with (posted self (after_check self w)).
    repeat case_innermost; unfold caught;
      repeat match goal with
      | |- context [is_RequestException ?e] => destruct (is_RequestException e)
      end;
      cbn [res obj world];
      try (split; [reflexivity|split; [reflexivity|split; reflexivity]]).
    split; [reflexivity|]. split; [reflexivity|].
    match goal with
    | |- context [stored ?tok ?t self'] =>
        destruct (stored_cache tok t self') as [-> ->];
        destruct (stored_cache tok t self) as [-> ->]
    end.
    auto.
Qed.


(** * The further properties at concrete inputs *)

(** X1 where the reply declares no lifetime. *)
Lemma raises_no_request_exception_witness :
  res (get_access_token env_no_lifetime zoom_tools quiet)
  = Raise (KeyError "expires_in") /\
  is_RequestException (KeyError "expires_in") = false /\
  logged (world (get_access_token env_no_lifetime zoom_tools quiet)) = [].
Proof.
  split; [reflexivity|].
  destruct (raises_no_request_exception env_no_lifetime zoom_tools quiet
              (KeyError "expires_in") eq_refl) as (H1 & H2 & _).
  exact (conj H1 H2).
Defined.


(** X4 where the endpoint issues "T". *)
Lemma result_is_cached_token_witness :
  res (get_access_token env_T zoom_tools quiet) = Ok "T" /\
  "T" <> "" /\
  py_str (access_token (obj (get_access_token env_T zoom_tools quiet))) = "T" /\
  logged (world (get_access_token env_T zoom_tools quiet)) = [].
Proof.
  assert (Hne : "T" <> "") by discriminate.
  split; [reflexivity|]. split; [exact Hne|].
  exact (result_is_cached_token env_T zoom_tools quiet "T" eq_refl Hne).
Defined.

(** X5 where the body is {"error": "invalid_client"}. *)
Lemma reply_without_token_raises_witness :
  py_truthy (access_token zoom_tools) = false /\
  lacks_token (JObject (insert "error" (PyStr "invalid_client") empty)) /\
  obj (get_access_token env_no_token zoom_tools quiet) = zoom_tools /\
  logged (world (get_access_token env_no_token zoom_tools quiet)) = [].
Proof.
  assert (Hst : ~ 400 <= 200 < 600) by lia.
  assert (Hl : lacks_token
                 (JObject (insert "error" (PyStr "invalid_client") empty)))
    by reflexivity.
  split; [reflexivity|]. split; [exact Hl|].
  destruct (reply_without_token_raises env_no_token zoom_tools quiet
              (mkResponse 200 "OK" "https://zoom.us/oauth/token"
                 (Some (JObject (insert "error" (PyStr "invalid_client") empty))))
              (JObject (insert "error" (PyStr "invalid_client") empty))
              (or_introl eq_refl) eq_refl Hst eq_refl Hl) as (_ & H1 & H2).
  exact (conj H1 H2).
Defined.

(** X6 where the body is {"access_token": "T"}. *)
Lemma reply_without_lifetime_tears_cache_witness :
  py_truthy (access_token zoom_tools) = false /\
  access_token (obj (get_access_token env_no_lifetime zoom_tools quiet))
  = PyStr "T" /\
  token_expires_at (obj (get_access_token env_no_lifetime zoom_tools quiet))
  = 0 /\
  _ZoomTool__access_token
    (obj (get_access_token env_no_lifetime zoom_tools quiet)) = None.
Proof.
  assert (Hst : ~ 400 <= 200 < 600) by lia.
  split; [reflexivity|].
  destruct (reply_without_lifetime_tears_cache env_no_lifetime zoom_tools quiet
              (mkResponse 200 "OK" "https://zoom.us/oauth/token"
                 (Some (JObject (insert "access_token" (PyStr "T") empty))))
              (insert "access_token" (PyStr "T") empty) (PyStr "T")
              (or_introl eq_refl) eq_refl Hst eq_refl eq_refl
              (or_introl eq_refl)) as (_ & H1 & H2 & H3 & _).
  exact (conj H1 (conj H2 H3)).
Defined.

(** X7 where the body is not JSON. *)
Lemma reply_not_json_is_a_failure_witness :
  py_truthy (access_token zoom_tools) = false /\
  res (get_access_token env_not_json zoom_tools quiet) = Ok "" /\
  obj (get_access_token env_not_json zoom_tools quiet) = zoom_tools.
Proof.
  assert (Hst : ~ 400 <= 200 < 600) by lia.
  split; [reflexivity|].
  destruct (reply_not_json_is_a_failure env_not_json zoom_tools quiet
              (mkResponse 200 "OK" "https://zoom.us/oauth/token" None)
              (or_introl eq_refl) eq_refl Hst eq_refl) as (H1 & H2 & _).
  exact (conj H1 H2).
Defined.

(** X9 after one call that fetched "T". *)
Lemma history_cache_invariant_witness :
  history env_T (obj (get_access_token env_T zoom_tools quiet))
          (world (get_access_token env_T zoom_tools quiet)) /\
  cache_invariant env_T (obj (get_access_token env_T zoom_tools quiet))
                  (world (get_access_token env_T zoom_tools quiet)).
Proof.
  assert (Hh : history env_T (obj (get_access_token env_T zoom_tools quiet))
                 (world (get_access_token env_T zoom_tools quiet))).
  { apply (history_call env_T zoom_tools quiet "T");
      [apply history_init | reflexivity]. }
  split; [exact Hh|].
  exact (history_cache_invariant env_T _ _ Hh).
Defined.

(** X10 for the first call on the tool of line 70. *)
Lemma returned_token_is_in_parent_witness :
  history env_T zoom_tools quiet /\
  res (get_access_token env_T zoom_tools quiet) = Ok "T" /\
  "T" <> "" /\
  _ZoomTool__access_token (obj (get_access_token env_T zoom_tools quiet))
  = Some "T".
Proof.
  assert (Hh : history env_T zoom_tools quiet) by apply history_init.
  assert (Hne : "T" <> "") by discriminate.
  split; [exact Hh|]. split; [reflexivity|]. split; [exact Hne|].
  exact (returned_token_is_in_parent env_T zoom_tools quiet "T" Hh eq_refl Hne).
Defined.

(** X11 where the token is JSON [null]. *)
Lemma falsy_token_returned_never_served_witness :
  py_truthy (access_token zoom_tools) = false /\
  exchange_succeeds env_null zoom_tools quiet PyNone 3600 /\
  fits_float 3600 = true /\
  py_truthy PyNone = false /\
  PyNone <> PyStr "" /\
  res (get_access_token env_null zoom_tools quiet) = Ok "None" /\
  _ZoomTool__access_token (obj (get_access_token env_null zoom_tools quiet))
  = Some "None" /\
  sent (world (get_access_token env_null
                 (obj (get_access_token env_null zoom_tools quiet))
                 (ticked quiet)))
  = [token_request zoom_tools].
Proof.
  assert (Hs : exchange_succeeds env_null zoom_tools quiet PyNone 3600)
    by succeeds_with (PyInt 3600).
  assert (Hne : PyNone <> PyStr "") by discriminate.
  split; [reflexivity|]. split; [exact Hs|]. split; [reflexivity|].
  split; [reflexivity|]. split; [exact Hne|].
  destruct (falsy_token_returned_never_served env_null zoom_tools quiet
              PyNone 3600 (ticked quiet) (or_introl eq_refl) Hs eq_refl
              eq_refl Hne)
    as (H1 & _ & H2 & H3).
  exact (conj H1 (conj H2 H3)).
Defined.


(** X13 where "T" lasts an hour and the next call follows at once. *)
Lemma fresh_token_served_witness :
  py_truthy (access_token zoom_tools) = false /\
  exchange_succeeds env_T zoom_tools quiet (PyStr "T") 3600 /\
  fits_float 3600 = true /\
  py_truthy (PyStr "T") = true /\
  clock env_T (ticks (world (get_access_token env_T zoom_tools quiet)))
  < issue_time env_T zoom_tools quiet + 3600 - 60 /\
  res (get_access_token env_T
         (obj (get_access_token env_T zoom_tools quiet))
         (world (get_access_token env_T zoom_tools quiet))) = Ok "T".
Proof.
  assert (Hs : exchange_succeeds env_T zoom_tools quiet (PyStr "T") 3600)
    by succeeds_with (PyInt 3600).
  assert (Hc : clock env_T
                 (ticks (world (get_access_token env_T zoom_tools quiet)))
               < issue_time env_T zoom_tools quiet + 3600 - 60)
    by reflexivity.
  split; [reflexivity|]. split; [exact Hs|]. split; [reflexivity|].
  split; [reflexivity|]. split; [exact Hc|].
  rewrite (fresh_token_served env_T zoom_tools quiet (PyStr "T") 3600
             (world (get_access_token env_T zoom_tools quiet))
             (or_introl eq_refl) Hs eq_refl eq_refl Hc).
  reflexivity.
Defined.

(** X15 where the endpoint answers 401 twice. *)
Lemma failure_is_not_cached_witness :
  token_expires_at tool_old <= clock env_401 (ticks quiet) /\
  exchange_fails env_401 tool_old quiet /\
  clock env_401 (ticks quiet)
  <= clock env_401 (ticks (world (get_access_token env_401 tool_old quiet))) /\
  length (sent (world (get_access_token env_401
                         (obj (get_access_token env_401 tool_old quiet))
                         (world (get_access_token env_401 tool_old quiet)))))
  = 2%nat.
Proof.
  assert (He : token_expires_at tool_old <= clock env_401 (ticks quiet))
    by (vm_compute; discriminate).
  assert (Hf : exchange_fails env_401 tool_old quiet).
  { right. eexists. split; [reflexivity|]. cbn. lia. }
  assert (Hc : clock env_401 (ticks quiet)
               <= clock env_401
                    (ticks (world (get_access_token env_401 tool_old quiet))))
    by (vm_compute; discriminate).
  split; [exact He|]. split; [exact Hf|]. split; [exact Hc|].
  destruct (failure_is_not_cached env_401 tool_old quiet
              (world (get_access_token env_401 tool_old quiet))
              (or_intror He) Hf Hc) as [_ H2].
  rewrite H2. reflexivity.
Defined.

